(** * The basic Python server template: [SampleTool.execute] and [main]

    Source: [mcp-lab/templates/python/basic/server.py].

    The file is a template: the tokens [{{toolName}}], [{{toolDescription}}]
    and [{{name}}] all stand inside string literals and are replaced by a
    project generator.  The development below embeds

    - the fragment of Python values a parameter mapping is made of, with the
      interpreter's truth test, [x or y], [repr], [str] and f-string
      formatting on that fragment, including the two ways formatting fails:
      an int with too many digits and a nesting deeper than the stack allows;
    - [SampleTool.execute], as a computation over the two objects the call
      holds references to (the tool and the parameter mapping);
    - the module body and [main], as straight-line programs of calls into
      the [mcp] framework, run against an arbitrary framework. *)

From Stdlib Require Import String Ascii List ZArith NArith Bool Lia DecimalString.
Import ListNotations.
Set Warnings "-register-all".
Local Open Scope string_scope.

(** ** Python values *)

Module Py.

(** The values a decoded parameter mapping is built from.  A [str] is a
    sequence of code points below 256; an [int] is unbounded; a [dict] has
    string keys and keeps its items in insertion order, which [repr] shows.
    Floats and instances of user classes are left out. *)
Inductive value : Type :=
| VNone
| VBool (b : bool)
| VInt (n : Z)
| VStr (s : string)
| VList (items : list value)
| VDict (items : list (string * value)).

Inductive exn : Type :=
| AttributeError (attr : string)
| TypeError
| ValueError
| RecursionError.

Inductive result (A : Type) : Type :=
| Ok (a : A)
| Raise (e : exn).
Arguments Ok {A} a.
Arguments Raise {A} e.

(** What the text of a value depends on besides the value:
    [sys.get_int_max_str_digits()], where 0 switches the limit off, and the
    number of nested [repr] calls the stack still has room for when
    [execute] formats its result. *)
Class interpreter : Type := {
  int_max_str_digits : N;
  recursion_budget : nat
}.

(** The interpreter's defaults: at most 4300 digits, a recursion limit of
    1000. *)
Definition cpython : interpreter :=
  {| int_max_str_digits := 4300; recursion_budget := 1000 |}.

(** [bool(v)]: the truth test behind [or]. *)
Definition truthy (v : value) : bool :=
  match v with
  | VNone => false
  | VBool b => b
  | VInt n => negb (n =? 0)%Z
  | VStr s => negb (s =? "")
  | VList items => match items with [] => false | _ :: _ => true end
  | VDict items => match items with [] => false | _ :: _ => true end
  end.

(** [x or y] with both operands already evaluated: [x] itself when it is
    truthy, [y] otherwise. *)
Definition py_or (x y : value) : value := if truthy x then x else y.

Definition is_str (v : value) : bool :=
  match v with VStr _ => true | _ => false end.

(** [sep.join(parts)] *)
Fixpoint join (sep : string) (parts : list string) : string :=
  match parts with
  | [] => ""
  | [p] => p
  | p :: rest => p ++ sep ++ join sep rest
  end.

Definition hex_digit (n : nat) : ascii :=
  match get n "0123456789abcdef" with Some c => c | None => "0"%char end.

Definition contains (c : ascii) (s : string) : bool :=
  existsb (Ascii.eqb c) (list_ascii_of_string s).

Definition squote : ascii := ascii_of_nat 39.
Definition dquote : ascii := ascii_of_nat 34.
Definition backslash : ascii := ascii_of_nat 92.

(** [str.isprintable] on one code point below 256. *)
Definition printable (c : ascii) : bool :=
  let n := nat_of_ascii c in
  ((32 <=? n) && (n <? 127) || (161 <=? n) && negb (n =? 173))%nat.

(** The quote [repr] encloses a string in: a double quote only when the
    string holds a single quote and no double quote. *)
Definition repr_quote (s : string) : ascii :=
  if contains squote s && negb (contains dquote s) then dquote else squote.

Definition repr_char (quote c : ascii) : string :=
  let n := nat_of_ascii c in
  if Ascii.eqb c quote || Ascii.eqb c backslash then String backslash (String c "")
  else if (n =? 9)%nat then String backslash "t"
  else if (n =? 10)%nat then String backslash "n"
  else if (n =? 13)%nat then String backslash "r"
  else if printable c then String c ""
  else String backslash
         (String "x" (String (hex_digit (n / 16)) (String (hex_digit (n mod 16)) ""))).

(** [repr(s)] for a string. *)
Definition repr_str (s : string) : string :=
  let q := repr_quote s in
  String q (String.concat "" (map (repr_char q) (list_ascii_of_string s)) ++ String q "").

(** The elements of a list are converted from left to right; the first
    exception ends the conversion. *)
Definition map_result {A B : Type} (f : A -> result B) : list A -> result (list B) :=
  fix go (l : list A) : result (list B) :=
    match l with
    | [] => Ok []
    | a :: l' =>
        match f a with
        | Ok b => match go l' with Ok bs => Ok (b :: bs) | Raise e => Raise e end
        | Raise e => Raise e
        end
    end.

Section Interpreter.

Context `{interpreter}.

(** An int has more decimal digits than the limit allows: its absolute value
    reaches 10 to the power of the limit. *)
Definition too_many_digits (n : Z) : bool :=
  (0 <? int_max_str_digits)%N && (10 ^ Z.of_N int_max_str_digits <=? Z.abs n)%Z.

(** [str(n)] for an int: decimal digits, a leading minus sign when negative;
    [ValueError] when the digits exceed the limit. *)
Definition str_int (n : Z) : result string :=
  if too_many_digits n then Raise ValueError
  else Ok (NilZero.string_of_int (Z.to_int n)).

(** [repr(v)] with [budget] nested calls left.  A list or dict calls [repr]
    on each element, which takes one level of the stack: with none left the
    first element raises [RecursionError]. *)
Fixpoint repr_at (budget : nat) (v : value) {struct v} : result string :=
  match v with
  | VNone => Ok "None"
  | VBool true => Ok "True"
  | VBool false => Ok "False"
  | VInt n => str_int n
  | VStr s => Ok (repr_str s)
  | VList items =>
      match budget with
      | O => match items with [] => Ok "[]" | _ :: _ => Raise RecursionError end
      | S b =>
          match map_result (repr_at b) items with
          | Ok parts => Ok ("[" ++ join ", " parts ++ "]")
          | Raise e => Raise e
          end
      end
  | VDict items =>
      match budget with
      | O => match items with [] => Ok "{}" | _ :: _ => Raise RecursionError end
      | S b =>
          match map_result
                  (fun kv => match repr_at b (snd kv) with
                             | Ok r => Ok (repr_str (fst kv) ++ ": " ++ r)
                             | Raise e => Raise e
                             end) items with
          | Ok parts => Ok ("{" ++ join ", " parts ++ "}")
          | Raise e => Raise e
          end
      end
  end.

(** [repr(v)] *)
Definition repr (v : value) : result string := repr_at recursion_budget v.

(** [str(v)]: a string is itself, every other value of the fragment is its
    [repr]. *)
Definition str (v : value) : result string :=
  match v with
  | VStr s => Ok s
  | _ => repr v
  end.

(** [format(v, "")], what a replacement field [{v}] of an f-string inserts:
    with an empty format specification every type of the fragment gives
    [str(v)]. *)
Definition format (v : value) : result string := str v.

(** The values whose text can be produced: every int inside within the
    digit limit, and no element deeper than the budget. *)
Fixpoint fits_at (budget : nat) (v : value) {struct v} : bool :=
  match v with
  | VInt n => negb (too_many_digits n)
  | VList items =>
      match budget with
      | O => match items with [] => true | _ :: _ => false end
      | S b => forallb (fits_at b) items
      end
  | VDict items =>
      match budget with
      | O => match items with [] => true | _ :: _ => false end
      | S b => forallb (fun kv => fits_at b (snd kv)) items
      end
  | _ => true
  end.

Definition fits (v : value) : bool := fits_at recursion_budget v.

End Interpreter.

(** Lookup of a key among the items of a dict. *)
Fixpoint lookup (key : string) (items : list (string * value)) : option value :=
  match items with
  | [] => None
  | (k, v) :: rest => if k =? key then Some v else lookup key rest
  end.

(** [obj.get(key, default)]: only a dict of the fragment has the method. *)
Definition dict_get (obj : value) (key : string) (default : value) : result value :=
  match obj with
  | VDict items =>
      Ok (match lookup key items with Some v => v | None => default end)
  | _ => Raise (AttributeError "get")
  end.

(** [n] lists, one inside the other, around [v]. *)
Fixpoint nested (n : nat) (v : value) : value :=
  match n with
  | O => v
  | S n' => VList [nested n' v]
  end.

End Py.
Import Py.

(** ** The template and its placeholders *)

(** The texts the generator puts in place of the three tokens.  Each token
    stands inside a string literal of the template, so each field is the
    value that literal denotes once the token is replaced. *)
Record placeholders : Type := {
  toolName : string;
  toolDescription : string;
  name : string
}.

(** The template as it is in the repository: every token still in place. *)
Definition unsubstituted : placeholders :=
  {| toolName := "{{toolName}}";
     toolDescription := "{{toolDescription}}";
     name := "{{name}}" |}.

(** The attributes the framework's tool abstraction exposes. *)
Record tool : Type := {
  tool_name : string;
  tool_description : string
}.

(** ** [class SampleTool(Tool)] *)

Module SampleTool.

Definition name (ph : placeholders) : string := toolName ph.
Definition description (ph : placeholders) : string := toolDescription ph.

(** An instance: it has no attribute of its own, only the two of its class. *)
Definition instance (ph : placeholders) : tool :=
  {| tool_name := name ph; tool_description := description ph |}.

(** The objects a call of [execute] holds references to. *)
Record frame : Type := {
  self : tool;
  params : value
}.

(** Computations of a method body: they may raise, and they may read and
    update the objects of the frame. *)
Definition M (A : Type) : Type := frame -> result A * frame.

Definition ret {A : Type} (a : A) : M A := fun fr => (Ok a, fr).

Definition bind {A B : Type} (m : M A) (k : A -> M B) : M B :=
  fun fr =>
    match m fr with
    | (Ok a, fr') => k a fr'
    | (Raise e, fr') => (Raise e, fr')
    end.

(** A computation that touches no object: its value, or its exception. *)
Definition pure {A : Type} (r : result A) : M A := fun fr => (r, fr).

Declare Scope py_scope.
Delimit Scope py_scope with py.
Notation "x <- m ;; k" := (bind m (fun x => k))
  (at level 61, m at next level, right associativity) : py_scope.

(** [params.get(key, default)] on the frame's parameter object. *)
Definition params_get (key : string) (default : value) : M value :=
  fun fr => (dict_get (params fr) key default, fr).

Section Interpreter.

Context `{interpreter}.

(** [def execute(self, params)] *)
Definition execute : M string :=
  (input_text <- params_get "input" (VStr "") ;;
   text <- pure (format (py_or input_text (VStr "No input provided"))) ;;
   ret ("Processed: " ++ text))%py.

(** A call [tool.execute(params)]: the returned string or the exception. *)
Definition call (t : tool) (p : value) : result string :=
  fst (execute {| self := t; params := p |}).

(** The objects as the call leaves them. *)
Definition after (t : tool) (p : value) : frame :=
  snd (execute {| self := t; params := p |}).

(** Two calls in a row on the same objects, by a caller that goes on after
    an exception: both outcomes, and the objects after the second call. *)
Definition twice (fr : frame) : (result string * result string) * frame :=
  let (o1, fr1) := execute fr in
  let (o2, fr2) := execute fr1 in
  ((o1, o2), fr2).

End Interpreter.

End SampleTool.

(** ** The module body, [main], and the framework they call *)

(** A reference to the server object the framework hands back. *)
Definition server : Type := nat.

(** The steps that run code outside this file, with the type of the answer:
    the import, the class statement (the metaclass of [Tool] builds the
    class), the calls, and the two attribute lookups on the server. *)
Inductive extcall : Type -> Type :=
| import_from (module : string) (names : list string) : extcall unit
| build_class (cls : string) (base : string) (t : tool) : extcall unit
| McpServer (name version : string) : extcall server
| getattr (srv : server) (attr : string) : extcall unit
| SampleTool_new (t : tool) : extcall unit
| register_tool (srv : server) (t : tool) : extcall unit
| print (line : string) : extcall unit
| start (srv : server) : extcall unit.

(** Straight-line programs over those steps. *)
Inductive prog (R : Type) : Type :=
| Done (r : R)
| Do {X : Type} (c : extcall X) (k : X -> prog R).
Arguments Done {R} r.
Arguments Do {R X} c k.

(** What an observer of the process sees. *)
Inductive event : Type :=
| EImport (module : string) (names : list string)
| EClass (cls : string) (base : string) (t : tool)
| EMcpServer (name version : string)
| EGetattr (srv : server) (attr : string)
| ESampleTool (t : tool)
| ERegister (srv : server) (t : tool)
| EPrint (line : string)
| EStart (srv : server).

Definition event_of {X : Type} (c : extcall X) : event :=
  match c with
  | import_from m ns => EImport m ns
  | build_class c b t => EClass c b t
  | McpServer n v => EMcpServer n v
  | getattr srv a => EGetattr srv a
  | SampleTool_new t => ESampleTool t
  | register_tool srv t => ERegister srv t
  | print line => EPrint line
  | start srv => EStart srv
  end.

(** A step returns, raises, or never returns (a blocking [start]). *)
Inductive reply (X : Type) : Type :=
| Returns (x : X)
| Raises
| Blocks.
Arguments Returns {X} x.
Arguments Raises {X}.
Arguments Blocks {X}.

(** The framework and the process's standard output: any state, any reply. *)
Definition framework (S : Type) : Type := forall X, extcall X -> S -> reply X * S.

Inductive outcome (R : Type) : Type :=
| Returned (r : R)
| Raised
| Blocked.
Arguments Returned {R} r.
Arguments Raised {R}.
Arguments Blocked {R}.

(** Running a program: the steps made, in order, and how the run ends.
    There is no handler in the file, so an exception ends the run. *)
Fixpoint exec {S R : Type} (fw : framework S) (p : prog R) (s : S)
  : list event * outcome R :=
  match p with
  | Done r => ([], Returned r)
  | Do c k =>
      match fw _ c s with
      | (Returns x, s') =>
          let (t, o) := exec fw (k x) s' in (event_of c :: t, o)
      | (Raises, _) => ([event_of c], Raised)
      | (Blocks, _) => ([event_of c], Blocked)
      end
  end.

Definition trace {S R : Type} (fw : framework S) (p : prog R) (s : S) : list event :=
  fst (exec fw p s).

(** [def main()].  In [server.register_tool(SampleTool())] the attribute is
    looked up before the argument is evaluated. *)
Definition main (ph : placeholders) : prog unit :=
  Do (McpServer (name ph) "1.0.0") (fun server =>
  Do (getattr server "register_tool") (fun _ =>
  Do (SampleTool_new (SampleTool.instance ph)) (fun _ =>
  Do (register_tool server (SampleTool.instance ph)) (fun _ =>
  Do (print ("Starting " ++ name ph ++ " MCP server...")) (fun _ =>
  Do (getattr server "start") (fun _ =>
  Do (start server) (fun _ =>
  Done tt))))))).

(** The steps of a run of [main] in which every step returns. *)
Definition main_events (ph : placeholders) (srv : server) : list event :=
  [ EMcpServer (name ph) "1.0.0";
    EGetattr srv "register_tool";
    ESampleTool (SampleTool.instance ph);
    ERegister srv (SampleTool.instance ph);
    EPrint ("Starting " ++ name ph ++ " MCP server...");
    EGetattr srv "start";
    EStart srv ].

Definition prefix_of (t full : list event) : Prop := exists rest, (t ++ rest)%list = full.

(** The module body, run under the name [dunder_name]: the import, the class
    statement, the definition of [main] (no step), and the guarded call. *)
Definition script (dunder_name : string) (ph : placeholders) : prog unit :=
  Do (import_from "mcp" ["McpServer"; "Tool"]) (fun _ =>
  Do (build_class "SampleTool" "Tool" (SampleTool.instance ph)) (fun _ =>
  if dunder_name =? "__main__" then main ph else Done tt)).

(** The two steps every run of the module starts with. *)
Definition module_events (ph : placeholders) : list event :=
  [ EImport "mcp" ["McpServer"; "Tool"];
    EClass "SampleTool" "Tool" (SampleTool.instance ph) ].

(** A framework in which every step returns; servers are numbered from the
    state. *)
Definition returning : framework nat :=
  fun X c =>
    match c in extcall X return nat -> reply X * nat with
    | McpServer _ _ => fun n => (Returns n, Datatypes.S n)
    | import_from _ _ => fun n => (Returns tt, n)
    | build_class _ _ _ => fun n => (Returns tt, n)
    | getattr _ _ => fun n => (Returns tt, n)
    | SampleTool_new _ => fun n => (Returns tt, n)
    | register_tool _ _ => fun n => (Returns tt, n)
    | print _ => fun n => (Returns tt, n)
    | start _ => fun n => (Returns tt, n)
    end.

(** A framework whose [start] serves forever. *)
Definition serving : framework nat :=
  fun X c =>
    match c in extcall X return nat -> reply X * nat with
    | start _ => fun n => (Blocks, n)
    | c' => returning _ c'
    end.

(** A framework like [returning], with a standard output that cannot be
    written to. *)
Definition broken_stdout : framework nat :=
  fun X c =>
    match c in extcall X return nat -> reply X * nat with
    | print _ => fun n => (Raises, n)
    | c' => returning _ c'
    end.

(** A framework whose server object has no [register_tool]. *)
Definition no_register_tool : framework nat :=
  fun X c =>
    match c in extcall X return nat -> reply X * nat with
    | getattr _ _ => fun n => (Raises, n)
    | c' => returning _ c'
    end.

(** A process in which the package [mcp] is not installed. *)
Definition no_mcp : framework nat :=
  fun X c =>
    match c in extcall X return nat -> reply X * nat with
    | import_from _ _ => fun n => (Raises, n)
    | c' => returning _ c'
    end.

(** ** Callers of [execute] *)

Definition is_dict (v : value) : bool :=
  match v with VDict _ => true | _ => false end.

(** A caller that hands each result back as the next [input], [n] times
    after the first call. *)
Fixpoint refeed `{interpreter} (n : nat) (t : tool) (p : value) : result string :=
  match n with
  | O => SampleTool.call t p
  | Datatypes.S n' =>
      match refeed n' t p with
      | Ok r => SampleTool.call t (VDict [("input", VStr r)])
      | Raise e => Raise e
      end
  end.

(** [n] more copies of the prefix in front of [s]. *)
Fixpoint prefixed (n : nat) (s : string) : string :=
  match n with
  | O => s
  | Datatypes.S n' => "Processed: " ++ prefixed n' s
  end.

(** * Properties *)

(** ** The value fragment *)

(** Induction on values that reaches the elements of lists and dicts. *)
Lemma value_nested_ind (P : value -> Prop)
      (HNone : P VNone) (HBool : forall b, P (VBool b))
      (HInt : forall n, P (VInt n)) (HStr : forall s, P (VStr s))
      (HList : forall items, Forall P items -> P (VList items))
      (HDict : forall items, Forall (fun kv => P (snd kv)) items -> P (VDict items)) :
  forall v, P v.
Proof.
  fix IH 1. intros [ |b|n|s|items|items].
  - exact HNone.
  - apply HBool.
  - apply HInt.
  - apply HStr.
  - apply HList. induction items as [|a items IHitems]; constructor.
    + apply IH.
    + exact IHitems.
  - apply HDict. induction items as [|[k a] items IHitems]; constructor.
    + apply IH.
    + exact IHitems.
Qed.

Lemma prefix_append (p rest : string) : prefix p (p ++ rest) = true.
Proof.
  induction p as [|c p IH]; simpl.
  - destruct rest; reflexivity.
  - rewrite IH. destruct (ascii_dec c c); [reflexivity | congruence].
Qed.

Lemma truthy_VStr (s : string) : truthy (VStr s) = true <-> s <> "".
Proof.
  simpl. destruct s as [|c s]; simpl; split; intros H; congruence.
Qed.

Section MapResult.

Context {A B : Type} (f : A -> result B).

Lemma map_result_ok (l : list A) :
  (exists bs, map_result f l = Ok bs) <-> Forall (fun a => exists b, f a = Ok b) l.
Proof.
  induction l as [|a l IH]; simpl.
  - split; [constructor | exists []; reflexivity].
  - split.
    + intros [bs E]. destruct (f a) as [b|e] eqn:Ea; [|discriminate].
      destruct (map_result f l) as [bs'|e] eqn:El; [|discriminate].
      constructor; [exists b; exact Ea | apply IH; exists bs'; reflexivity].
    + intros Hall. inversion Hall as [|a' l' [b Ea] Hl]; subst.
      apply IH in Hl. destruct Hl as [bs El].
      rewrite Ea, El. eexists; reflexivity.
Qed.

Lemma map_result_raise (l : list A) (e : exn) :
  map_result f l = Raise e -> exists a, In a l /\ f a = Raise e.
Proof.
  induction l as [|a l IH]; simpl; [discriminate|].
  destruct (f a) as [b|e'] eqn:Ea.
  - destruct (map_result f l) as [bs|e''] eqn:El; [discriminate|].
    intros E. injection E as <-. destruct (IH eq_refl) as (a' & Hin & Ha').
    exists a'. split; [right; exact Hin | exact Ha'].
  - intros E. injection E as <-. exists a. split; [left; reflexivity | exact Ea].
Qed.

End MapResult.

Section Text.

Context `{interpreter}.

(** The decimal text of an int starts with a digit or a minus sign. *)
Lemma str_int_head (n : Z) (s : string) :
  str_int n = Ok s ->
  exists c rest, s = String c rest /\
    (c = "-"%char \/ (48 <= nat_of_ascii c <= 57)%nat).
Proof.
  unfold str_int. destruct (too_many_digits n); [discriminate|].
  intros E. injection E as <-.
  destruct (Z.to_int n) as [d|d]; simpl.
  - destruct d; simpl; eexists; eexists; (split; [reflexivity|]);
      right; cbv; lia.
  - eexists; eexists; split; [reflexivity|]. left; reflexivity.
Qed.

Lemma str_int_raise (n : Z) (e : exn) : str_int n = Raise e -> e = ValueError.
Proof.
  unfold str_int. destruct (too_many_digits n); intros E; [|discriminate].
  now injection E as <-.
Qed.

Lemma str_int_fits (n : Z) :
  too_many_digits n = false <-> exists s, str_int n = Ok s.
Proof.
  unfold str_int. destruct (too_many_digits n); split.
  - discriminate.
  - intros [s E]. discriminate.
  - intros _. eexists; reflexivity.
  - reflexivity.
Qed.

(** An int below 10 to the power of the limit is converted. *)
Lemma str_int_within (n : Z) :
  int_max_str_digits = 0%N \/ (Z.abs n < 10 ^ Z.of_N int_max_str_digits)%Z ->
  str (VInt n) = Ok (NilZero.string_of_int (Z.to_int n)).
Proof.
  intros Hlim. simpl. unfold repr. simpl. unfold str_int, too_many_digits.
  destruct Hlim as [-> | Hlt]; [reflexivity|].
  apply Z.leb_gt in Hlt. rewrite Hlt, andb_false_r. reflexivity.
Qed.

(** So is every int of one digit, whatever the limit. *)
Lemma str_int_small (n : Z) :
  (Z.abs n < 10)%Z ->
  str (VInt n) = Ok (NilZero.string_of_int (Z.to_int n)).
Proof.
  intros Hn. apply str_int_within.
  destruct (N.eq_dec int_max_str_digits 0) as [E|NE]; [left; exact E | right].
  apply Z.lt_le_trans with (m := (10 ^ 1)%Z); [exact Hn|].
  apply Z.pow_le_mono_r; lia.
Qed.

(** An int that reaches 10 to the power of the limit is refused. *)
Lemma str_int_too_long (n : Z) :
  (0 < int_max_str_digits)%N ->
  (10 ^ Z.of_N int_max_str_digits <= Z.abs n)%Z ->
  truthy (VInt n) = true /\ str (VInt n) = Raise ValueError /\ fits (VInt n) = false.
Proof.
  intros Hpos Hbig.
  assert (Hn : n <> 0%Z).
  { intros ->. simpl in Hbig.
    pose proof (Z.pow_pos_nonneg 10 (Z.of_N int_max_str_digits)) as Hp. lia. }
  assert (Htm : too_many_digits n = true).
  { unfold too_many_digits. apply N.ltb_lt in Hpos. apply Z.leb_le in Hbig.
    rewrite Hpos, Hbig. reflexivity. }
  split; [|split].
  - simpl. apply negb_true_iff, Z.eqb_neq, Hn.
  - simpl. unfold repr. simpl. unfold str_int. rewrite Htm. reflexivity.
  - unfold fits. simpl. rewrite Htm. reflexivity.
Qed.

(** The text of a value always starts with a character, and for a value
    other than a string never with the capital N of the fallback followed
    by the rest of it. *)
Lemma repr_at_head (budget : nat) (v : value) (s : string) :
  repr_at budget v = Ok s ->
  s <> "" /\ (is_str v = false -> s <> "No input provided").
Proof.
  destruct v as [|b|n|s'|items|items]; simpl.
  - intros E; injection E as <-. split; [discriminate | intros _; discriminate].
  - destruct b; intros E; injection E as <-; (split; [discriminate | intros _; discriminate]).
  - intros E. destruct (str_int_head n s E) as (c & rest & -> & Hc).
    split; [discriminate|]. intros _ E'. injection E' as -> _.
    destruct Hc as [Hc|Hc]; [discriminate | cbv in Hc; lia].
  - intros E; injection E as <-. split; [discriminate | intros Hs; discriminate Hs].
  - destruct budget as [|b].
    + destruct items; intros E; [|discriminate]. injection E as <-.
      split; [discriminate | intros _; discriminate].
    + destruct (map_result (repr_at b) items); intros E; [|discriminate].
      injection E as <-. split; [discriminate | intros _; discriminate].
  - destruct budget as [|b].
    + destruct items; intros E; [|discriminate]. injection E as <-.
      split; [discriminate | intros _; discriminate].
    + match goal with |- match ?m with _ => _ end = _ -> _ => destruct m end;
        intros E; [|discriminate].
      injection E as <-. split; [discriminate | intros _; discriminate].
Qed.

(** Producing a text fails in two ways only. *)
Lemma repr_at_raise (v : value) :
  forall budget e, repr_at budget v = Raise e -> e = ValueError \/ e = RecursionError.
Proof.
  induction v as [ |b|n|s|items IH|items IH] using value_nested_ind;
    intros budget e; simpl.
  - discriminate.
  - destruct b; discriminate.
  - intros E. left. apply (str_int_raise n e E).
  - discriminate.
  - destruct budget as [|b].
    + destruct items; intros E; [discriminate|]. injection E as <-. right; reflexivity.
    + destruct (map_result (repr_at b) items) as [parts|e'] eqn:Em; intros E;
        [discriminate|]. injection E as ->.
      apply map_result_raise in Em. destruct Em as (a & Hin & Ha).
      rewrite Forall_forall in IH. apply (IH a Hin b e Ha).
  - destruct budget as [|b].
    + destruct items; intros E; [discriminate|]. injection E as <-. right; reflexivity.
    + match goal with |- match ?m with _ => _ end = _ -> _ => destruct m as [parts|e'] eqn:Em end;
        intros E; [discriminate|]. injection E as ->.
      apply map_result_raise in Em. destruct Em as ([k a] & Hin & Ha).
      simpl in Ha. destruct (repr_at b a) as [r|e''] eqn:Er; [discriminate|].
      injection Ha as ->.
      rewrite Forall_forall in IH. apply (IH (k, a) Hin b e Er).
Qed.

(** A text is produced exactly for the values that fit. *)
Lemma repr_at_fits (v : value) :
  forall budget, fits_at budget v = true <-> exists s, repr_at budget v = Ok s.
Proof.
  induction v as [ |b|n|s|items IH|items IH] using value_nested_ind;
    intros budget; simpl.
  - split; [eexists; reflexivity | reflexivity].
  - destruct b; (split; [eexists; reflexivity | reflexivity]).
  - rewrite negb_true_iff. apply str_int_fits.
  - split; [eexists; reflexivity | reflexivity].
  - destruct budget as [|b].
    + destruct items; split; try discriminate; try reflexivity.
      * eexists; reflexivity.
      * intros [s E]; discriminate.
    + rewrite forallb_forall. rewrite Forall_forall in IH. split.
      * intros Hall.
        assert (Hm : exists parts, map_result (repr_at b) items = Ok parts).
        { apply map_result_ok. apply Forall_forall. intros a Hin.
          apply (IH a Hin b), Hall, Hin. }
        destruct Hm as [parts ->]. eexists; reflexivity.
      * intros [s E] a Hin.
        destruct (map_result (repr_at b) items) as [parts|e] eqn:Em; [|discriminate].
        assert (Hall : Forall (fun a => exists r, repr_at b a = Ok r) items).
        { apply map_result_ok. exists parts. exact Em. }
        rewrite Forall_forall in Hall. apply (IH a Hin b), Hall, Hin.
  - destruct budget as [|b].
    + destruct items; split; try discriminate; try reflexivity.
      * eexists; reflexivity.
      * intros [s E]; discriminate.
    + rewrite forallb_forall. rewrite Forall_forall in IH. split.
      * intros Hall.
        match goal with |- exists s, match ?m with _ => _ end = _ =>
          assert (Hm : exists parts, m = Ok parts) end.
        { apply map_result_ok. apply Forall_forall. intros [k a] Hin. simpl.
          destruct (proj1 (IH (k, a) Hin b) (Hall (k, a) Hin)) as [r Hr].
          simpl in Hr. rewrite Hr. eexists; reflexivity. }
        destruct Hm as [parts ->]. eexists; reflexivity.
      * intros [s E] [k a] Hin.
        match type of E with match ?m with _ => _ end = _ =>
          destruct m as [parts|e] eqn:Em end; [|discriminate].
        assert (Hall : Forall (fun kv : string * value =>
                         exists r, match repr_at b (snd kv) with
                                   | Ok r0 => Ok (repr_str (fst kv) ++ ": " ++ r0)
                                   | Raise e => Raise e
                                   end = Ok r) items).
        { apply map_result_ok. exists parts. exact Em. }
        rewrite Forall_forall in Hall. destruct (Hall (k, a) Hin) as [r Hr].
        simpl in Hr. apply (IH (k, a) Hin b). simpl.
        destruct (repr_at b a) as [r0|e]; [eexists; reflexivity | discriminate].
Qed.

Lemma str_fits (v : value) : fits v = true <-> exists text, str v = Ok text.
Proof.
  destruct v; try apply repr_at_fits.
  simpl. split; [eexists; reflexivity | reflexivity].
Qed.

Lemma str_raise (v : value) (e : exn) :
  str v = Raise e -> is_str v = false /\ (e = ValueError \/ e = RecursionError).
Proof.
  destruct v; simpl; try discriminate;
    intros E; (split; [reflexivity | exact (repr_at_raise _ _ _ E)]).
Qed.

Lemma str_VStr (s : string) : str (VStr s) = Ok s.
Proof. reflexivity. Qed.

Lemma str_non_string (v : value) : is_str v = false -> str v = repr v.
Proof. destruct v; simpl; intros Hs; congruence. Qed.

(** The text of a truthy value is never empty. *)
Lemma str_truthy_nonempty (v : value) (text : string) :
  truthy v = true -> str v = Ok text -> text <> "".
Proof.
  destruct v as [|b|n|s|l|d]; try (intros _ E; apply (repr_at_head _ _ _ E)).
  intros Ht E. injection E as <-. apply truthy_VStr, Ht.
Qed.

(** No value other than a string has the fallback as its text. *)
Lemma str_not_fallback (v : value) (text : string) :
  is_str v = false -> str v = Ok text -> text <> "No input provided".
Proof.
  intros Hs E. rewrite (str_non_string v Hs) in E.
  apply (proj2 (repr_at_head _ _ _ E) Hs).
Qed.

End Text.

(** ** [SampleTool.execute] *)

Section Execute.

Context `{interpreter}.

Section OnDict.

Variable t : tool.
Variable d : list (string * value).

Let fr : SampleTool.frame := {| SampleTool.self := t; SampleTool.params := VDict d |}.

(** On a dict, the body gets as far as the formatting, returns when that
    does, and leaves the frame alone either way. *)
Lemma execute_dict :
  SampleTool.execute fr
  = (match format (py_or (match lookup "input" d with Some v => v | None => VStr "" end)
                         (VStr "No input provided")) with
     | Ok text => Ok ("Processed: " ++ text)
     | Raise e => Raise e
     end, fr).
Proof.
  unfold SampleTool.execute, SampleTool.bind, SampleTool.params_get, SampleTool.pure,
    SampleTool.ret. simpl.
  destruct (format _); reflexivity.
Qed.

Lemma call_dict :
  SampleTool.call t (VDict d)
  = match format (py_or (match lookup "input" d with Some v => v | None => VStr "" end)
                        (VStr "No input provided")) with
    | Ok text => Ok ("Processed: " ++ text)
    | Raise e => Raise e
    end.
Proof. unfold SampleTool.call. fold fr. rewrite execute_dict. reflexivity. Qed.

Lemma call_text (v : value) (text : string) :
  lookup "input" d = Some v -> truthy v = true -> str v = Ok text ->
  SampleTool.call t (VDict d) = Ok ("Processed: " ++ text).
Proof.
  intros Hl Ht Hs. rewrite call_dict, Hl. unfold py_or, format. rewrite Ht, Hs.
  reflexivity.
Qed.

Lemma call_raise (v : value) (e : exn) :
  lookup "input" d = Some v -> truthy v = true -> str v = Raise e ->
  SampleTool.call t (VDict d) = Raise e.
Proof.
  intros Hl Ht Hs. rewrite call_dict, Hl. unfold py_or, format. rewrite Ht, Hs.
  reflexivity.
Qed.

Lemma call_falsy (v : value) :
  lookup "input" d = Some v -> truthy v = false ->
  SampleTool.call t (VDict d) = Ok "Processed: No input provided".
Proof.
  intros Hl Ht. rewrite call_dict, Hl. unfold py_or. rewrite Ht. reflexivity.
Qed.

Lemma call_missing :
  lookup "input" d = None ->
  SampleTool.call t (VDict d) = Ok "Processed: No input provided".
Proof. intros Hl. rewrite call_dict, Hl. reflexivity. Qed.

Lemma call_int_too_long (n : Z) :
  lookup "input" d = Some (VInt n) ->
  (0 < int_max_str_digits)%N ->
  (10 ^ Z.of_N int_max_str_digits <= Z.abs n)%Z ->
  SampleTool.call t (VDict d) = Raise ValueError.
Proof.
  intros Hl Hpos Hbig. destruct (str_int_too_long n Hpos Hbig) as (Ht & Hs & _).
  apply (call_raise (VInt n) ValueError Hl Ht Hs).
Qed.

(** The three ways a call on a dict ends. *)
Lemma call_cases :
  (SampleTool.call t (VDict d) = Ok "Processed: No input provided"
   /\ (lookup "input" d = None
       \/ exists v, lookup "input" d = Some v /\ truthy v = false))
  \/ (exists v text, lookup "input" d = Some v /\ truthy v = true
                     /\ str v = Ok text
                     /\ SampleTool.call t (VDict d) = Ok ("Processed: " ++ text))
  \/ (exists v e, lookup "input" d = Some v /\ truthy v = true
                  /\ str v = Raise e
                  /\ SampleTool.call t (VDict d) = Raise e).
Proof.
  destruct (lookup "input" d) as [v|] eqn:Hl.
  - destruct (truthy v) eqn:Ht.
    + right. destruct (str v) as [text|e] eqn:Hs.
      * left. exists v, text. repeat split; try assumption.
        apply (call_text v text Hl Ht Hs).
      * right. exists v, e. repeat split; try assumption.
        apply (call_raise v e Hl Ht Hs).
    + left. split; [apply (call_falsy v Hl Ht)|]. right. exists v. split; auto.
  - left. split; [apply (call_missing Hl)|]. left. reflexivity.
Qed.

End OnDict.

(** A key other than [input] changes nothing, present or not. *)
Lemma execute_ignores_other_key (t : tool) (d : list (string * value))
      (k : string) (v : value) :
  k <> "input" ->
  SampleTool.call t (VDict ((k, v) :: d)) = SampleTool.call t (VDict d).
Proof.
  intros Hk. rewrite !call_dict. simpl.
  destruct (String.eqb_spec k "input") as [E|_]; [contradiction | reflexivity].
Qed.

(** C1: when the key [input] is missing, or bound to a falsy value, [execute]
    returns the text with the fallback, [Processed: No input provided]; when
    it is bound to a truthy value whose text [str] produces, that text follows
    the prefix, and the text of a string is the string itself, unchanged; when
    [str] raises on the value, so does [execute], with the same exception. *)
Theorem execute_fallback_or_text (t : tool) (d : list (string * value)) :
  (lookup "input" d = None ->
   SampleTool.call t (VDict d) = Ok "Processed: No input provided")
  /\ (forall v, lookup "input" d = Some v -> truthy v = false ->
      SampleTool.call t (VDict d) = Ok "Processed: No input provided")
  /\ (forall v text, lookup "input" d = Some v -> truthy v = true ->
      str v = Ok text ->
      SampleTool.call t (VDict d) = Ok ("Processed: " ++ text))
  /\ (forall s, lookup "input" d = Some (VStr s) -> truthy (VStr s) = true ->
      SampleTool.call t (VDict d) = Ok ("Processed: " ++ s))
  /\ (forall v e, lookup "input" d = Some v -> truthy v = true ->
      str v = Raise e ->
      is_str v = false /\ SampleTool.call t (VDict d) = Raise e).
Proof.
  split; [apply call_missing|].
  split; [apply call_falsy|].
  split; [apply call_text|].
  split.
  - intros s Hl Ht. apply (call_text t d (VStr s) s Hl Ht). reflexivity.
  - intros v e Hl Ht Hs. split; [apply (str_raise v e Hs)|].
    apply (call_raise t d v e Hl Ht Hs).
Qed.

(** C2: a mapping that binds [input] to a non-empty string [s] gives
    [Processed: ] followed by [s]. *)
Theorem execute_nonempty_string (t : tool) (d : list (string * value)) (s : string) :
  lookup "input" d = Some (VStr s) -> s <> "" ->
  SampleTool.call t (VDict d) = Ok ("Processed: " ++ s).
Proof.
  intros Hl Hs. apply truthy_VStr in Hs.
  apply (call_text t d (VStr s) s Hl Hs). reflexivity.
Qed.

(** C3: on a parameter mapping [execute] returns a string exactly when the
    value of [input], if there is one and it is truthy, is a value whose text
    can be produced; an exception is raised only by the formatting of a
    truthy value that is not a string and does not fit, and it is a
    [ValueError] (an int with too many digits) or a [RecursionError] (too
    deep a nesting). *)
Theorem execute_succeeds_unless_text_fails (t : tool) (d : list (string * value)) :
  ((exists s, SampleTool.call t (VDict d) = Ok s)
   <-> (forall v, lookup "input" d = Some v -> truthy v = true -> fits v = true))
  /\ (forall e, SampleTool.call t (VDict d) = Raise e ->
      exists v, lookup "input" d = Some v /\ truthy v = true /\ is_str v = false
                /\ fits v = false /\ str v = Raise e
                /\ (e = ValueError \/ e = RecursionError)).
Proof.
  assert (Hraise : forall e, SampleTool.call t (VDict d) = Raise e ->
      exists v, lookup "input" d = Some v /\ truthy v = true /\ is_str v = false
                /\ fits v = false /\ str v = Raise e
                /\ (e = ValueError \/ e = RecursionError)).
  { intros e E.
    destruct (call_cases t d) as [[Hc _] | [(v & text & _ & _ & _ & Hc) | (v & e' & Hl & Ht & Hs & Hc)]];
      rewrite Hc in E; try discriminate E.
    injection E as ->. exists v.
    destruct (str_raise v e Hs) as [Hns Hkind].
    repeat split; try assumption.
    destruct (fits v) eqn:Hf; [|reflexivity].
    apply str_fits in Hf. destruct Hf as [text Hok]. congruence. }
  split; [|exact Hraise].
  split.
  - intros [s E] v Hl Ht. apply str_fits.
    destruct (str v) as [text|e] eqn:Hs; [exists text; reflexivity|].
    rewrite (call_raise t d v e Hl Ht Hs) in E. discriminate E.
  - intros Hfit. destruct (SampleTool.call t (VDict d)) as [s|e] eqn:E;
      [exists s; reflexivity|].
    destruct (Hraise e eq_refl) as (v & Hl & Ht & _ & Hf & _).
    rewrite (Hfit v Hl Ht) in Hf. discriminate Hf.
Qed.

(** C5: a string [execute] returns is never empty: it starts with the
    prefix [Processed: ]; and a string is returned whenever the value of
    [input] is missing, falsy, or one whose text can be produced. *)
Theorem execute_result_nonempty (t : tool) (d : list (string * value)) :
  (forall s, SampleTool.call t (VDict d) = Ok s ->
     s <> "" /\ prefix "Processed: " s = true /\ 11 <= String.length s)
  /\ ((forall v, lookup "input" d = Some v -> truthy v = true -> fits v = true) ->
      exists s, SampleTool.call t (VDict d) = Ok s /\ s <> "").
Proof.
  assert (Hres : forall s, SampleTool.call t (VDict d) = Ok s ->
     s <> "" /\ prefix "Processed: " s = true /\ 11 <= String.length s).
  { intros s. rewrite call_dict. destruct (format _) as [text|e]; intros E;
      [|discriminate E]. injection E as <-.
    split; [discriminate|].
    split; [exact (prefix_append "Processed: " text)|]. simpl. lia. }
  split; [exact Hres|].
  intros Hfit.
  destruct (call_cases t d) as [[Hc _] | [(v & text & _ & _ & _ & Hc) | (v & e & Hl & Ht & Hs & _)]].
  - eexists. split; [exact Hc | discriminate].
  - eexists. split; [exact Hc | discriminate].
  - pose proof (Hfit v Hl Ht) as Hf. apply str_fits in Hf.
    destruct Hf as [text Hok]. congruence.
Qed.

(** C6: two mappings that agree on [input] (both without it, or both with
    the same value) give the same result, whatever their other keys hold. *)
Theorem execute_reads_only_input (t1 t2 : tool) (d1 d2 : list (string * value)) :
  lookup "input" d1 = lookup "input" d2 ->
  SampleTool.call t1 (VDict d1) = SampleTool.call t2 (VDict d2).
Proof.
  intros Hl. rewrite !call_dict, Hl. reflexivity.
Qed.

(** C7: two calls in a row on the same mapping end the same way, with the
    same string or the same exception, and the objects are after the second
    call as they were before the first. *)
Theorem execute_twice_same (t : tool) (d : list (string * value)) :
  exists o,
    SampleTool.twice {| SampleTool.self := t; SampleTool.params := VDict d |}
    = ((o, o), {| SampleTool.self := t; SampleTool.params := VDict d |})
    /\ SampleTool.call t (VDict d) = o.
Proof.
  unfold SampleTool.twice. rewrite !execute_dict.
  eexists. split; [reflexivity|]. apply call_dict.
Qed.

(** C8: a call leaves the mapping and the tool's [name] and [description] as
    they were. *)
Theorem execute_no_side_effect (t : tool) (d : list (string * value)) :
  SampleTool.after t (VDict d)
  = {| SampleTool.self := t; SampleTool.params := VDict d |}
  /\ SampleTool.params (SampleTool.after t (VDict d)) = VDict d
  /\ tool_name (SampleTool.self (SampleTool.after t (VDict d))) = tool_name t
  /\ tool_description (SampleTool.self (SampleTool.after t (VDict d))) = tool_description t.
Proof.
  unfold SampleTool.after. rewrite execute_dict. repeat split.
Qed.

(** C10: when [input] holds a truthy value that is not a string, [execute]
    returns [Processed: ] followed by [str] of the value, which is its
    [repr] and never the fallback text, provided that text can be produced:
    it is when the value fits; when it does not, [execute] raises the
    [ValueError] or [RecursionError] of the conversion. *)
Theorem execute_non_string_text (t : tool) (d : list (string * value)) (v : value) :
  lookup "input" d = Some v -> truthy v = true -> is_str v = false ->
  str v = repr v
  /\ (fits v = true ->
      exists text, str v = Ok text
                   /\ SampleTool.call t (VDict d) = Ok ("Processed: " ++ text)
                   /\ SampleTool.call t (VDict d) <> Ok "Processed: No input provided")
  /\ (fits v = false ->
      exists e, str v = Raise e
                /\ SampleTool.call t (VDict d) = Raise e
                /\ (e = ValueError \/ e = RecursionError)).
Proof.
  intros Hl Ht Hs. split; [apply str_non_string, Hs|]. split.
  - intros Hf. apply str_fits in Hf. destruct Hf as [text Hok].
    exists text. split; [exact Hok|].
    rewrite (call_text t d v text Hl Ht Hok). split; [reflexivity|].
    intros E. injection E as E. apply (str_not_fallback v text Hs Hok E).
  - intros Hf. destruct (str v) as [text|e] eqn:Hv.
    + assert (Hf' : fits v = true) by (apply str_fits; exists text; exact Hv).
      congruence.
    + exists e. split; [reflexivity|].
      split; [apply (call_raise t d v e Hl Ht Hv) | apply (str_raise v e Hv)].
Qed.

(** *** Further properties of [execute] *)

(** X1: a [params] that is not a dict (None, a string, a list, a number) has
    no [get]: the call raises [AttributeError] at its first statement, and
    the tool and the object passed are left as they were. *)
Theorem execute_not_a_dict (t : tool) (p : value) :
  is_dict p = false ->
  SampleTool.execute {| SampleTool.self := t; SampleTool.params := p |}
  = (Raise (AttributeError "get"), {| SampleTool.self := t; SampleTool.params := p |}).
Proof.
  destruct p; simpl; intros Hp; try discriminate; reflexivity.
Qed.

(** X2: the fallback answer is returned exactly when [input] is missing,
    or falsy, or is itself the string [No input provided]: a caller cannot
    tell these apart from the result. *)
Theorem execute_fallback_iff (t : tool) (d : list (string * value)) :
  SampleTool.call t (VDict d) = Ok "Processed: No input provided"
  <-> (lookup "input" d = None
       \/ exists v, lookup "input" d = Some v
                    /\ (truthy v = false \/ v = VStr "No input provided")).
Proof.
  split.
  - intros E.
    destruct (call_cases t d)
      as [[_ [Hl | (v & Hl & Ht)]] | [(v & text & Hl & Ht & Hs & Hc) | (v & e & _ & _ & _ & Hc)]].
    + left. exact Hl.
    + right. exists v. split; [exact Hl | left; exact Ht].
    + right. exists v. split; [exact Hl | right].
      rewrite Hc in E. injection E as E. subst text.
      destruct (is_str v) eqn:Hv.
      * destruct v; try discriminate Hv. simpl in Hs. injection Hs as ->. reflexivity.
      * exfalso. apply (str_not_fallback v _ Hv Hs). reflexivity.
    + rewrite Hc in E. discriminate E.
  - intros [Hl | (v & Hl & [Ht | ->])].
    + apply call_missing, Hl.
    + apply (call_falsy t d v Hl Ht).
    + apply (call_text t d _ _ Hl); reflexivity.
Qed.

(** X3: in a string [execute] returns, what follows the prefix is never
    empty: the result is never the bare prefix, and it has at least twelve
    characters. *)
Theorem execute_text_nonempty (t : tool) (d : list (string * value)) (s : string) :
  SampleTool.call t (VDict d) = Ok s ->
  exists text, s = "Processed: " ++ text
               /\ text <> ""
               /\ s <> "Processed: "
               /\ 12 <= String.length s.
Proof.
  intros E.
  assert (Ht : exists text, s = "Processed: " ++ text /\ text <> "").
  { destruct (call_cases t d)
      as [[Hc _] | [(v & text & _ & Htr & Hs & Hc) | (v & e & _ & _ & _ & Hc)]];
      rewrite Hc in E; try discriminate E; injection E as <-.
    - exists "No input provided". split; [reflexivity | discriminate].
    - exists text. split; [reflexivity|]. apply (str_truthy_nonempty v text Htr Hs). }
  destruct Ht as (text & -> & Hne). exists text.
  split; [reflexivity|]. split; [exact Hne|]. split.
  - intros E'. injection E' as E'. apply Hne, E'.
  - destruct text as [|c text]; [congruence|]. simpl. lia.
Qed.

(** X4: the result does not show the type of the value: a truthy value whose
    text can be produced and the string of that text give the same result. *)
Theorem execute_type_blind (t : tool) (d d' : list (string * value))
        (v : value) (text : string) :
  lookup "input" d = Some v -> truthy v = true -> str v = Ok text ->
  lookup "input" d' = Some (VStr text) ->
  SampleTool.call t (VDict d) = SampleTool.call t (VDict d').
Proof.
  intros Hl Ht Hs Hl'.
  rewrite (call_text t d v text Hl Ht Hs).
  symmetry. apply (call_text t d' (VStr text) text Hl'); [|reflexivity].
  apply truthy_VStr. apply (str_truthy_nonempty v text Ht Hs).
Qed.

(** X5: on truthy inputs whose texts can be produced the result determines
    the text of the input and nothing more: two calls agree exactly when the
    texts agree. *)
Theorem execute_result_determines_text
        (t : tool) (d1 d2 : list (string * value)) (v1 v2 : value)
        (text1 text2 : string) :
  lookup "input" d1 = Some v1 -> truthy v1 = true -> str v1 = Ok text1 ->
  lookup "input" d2 = Some v2 -> truthy v2 = true -> str v2 = Ok text2 ->
  (SampleTool.call t (VDict d1) = SampleTool.call t (VDict d2) <-> text1 = text2).
Proof.
  intros Hl1 Ht1 Hs1 Hl2 Ht2 Hs2.
  rewrite (call_text t d1 v1 text1 Hl1 Ht1 Hs1), (call_text t d2 v2 text2 Hl2 Ht2 Hs2).
  split; intros E.
  - injection E as E. exact E.
  - now rewrite E.
Qed.

Lemma prefixed_nonempty (n : nat) (s : string) : s <> "" -> prefixed n s <> "".
Proof. destruct n; simpl; [auto | discriminate]. Qed.

(** X6: once a call has returned, handing the result back as [input] never
    reaches the fallback and never raises: each round puts one more prefix
    in front of the first result. *)
Theorem refeed_adds_prefixes (n : nat) (t : tool) (d : list (string * value))
        (r : string) :
  SampleTool.call t (VDict d) = Ok r ->
  refeed n t (VDict d) = Ok (prefixed n r).
Proof.
  intros Hc.
  assert (Hne : r <> "").
  { rewrite call_dict in Hc. destruct (format _); [|discriminate Hc].
    injection Hc as <-. discriminate. }
  induction n as [|n IH]; simpl; [exact Hc|].
  rewrite IH.
  apply (call_text t [("input", VStr (prefixed n r))] (VStr (prefixed n r)) _ eq_refl);
    [|reflexivity].
  apply truthy_VStr, prefixed_nonempty, Hne.
Qed.

(** X10: an int under [input]: zero gives the fallback; a non-zero int
    below 10 to the power of the digit limit (or any, when the limit is off)
    gives its decimal text; one that reaches that power, so has more digits
    than the limit, makes [execute] raise [ValueError]. *)
Theorem execute_int_digit_limit (t : tool) (d : list (string * value)) (n : Z) :
  lookup "input" d = Some (VInt n) ->
  (n = 0%Z -> SampleTool.call t (VDict d) = Ok "Processed: No input provided")
  /\ (n <> 0%Z ->
      (int_max_str_digits = 0%N \/ (Z.abs n < 10 ^ Z.of_N int_max_str_digits)%Z) ->
      SampleTool.call t (VDict d)
      = Ok ("Processed: " ++ NilZero.string_of_int (Z.to_int n)))
  /\ ((0 < int_max_str_digits)%N ->
      (10 ^ Z.of_N int_max_str_digits <= Z.abs n)%Z ->
      SampleTool.call t (VDict d) = Raise ValueError).
Proof.
  intros Hl. split; [|split].
  - intros ->. apply (call_falsy t d _ Hl). reflexivity.
  - intros Hn Hlim. apply (call_text t d _ _ Hl).
    + simpl. apply negb_true_iff, Z.eqb_neq, Hn.
    + apply str_int_within, Hlim.
  - intros Hpos Hbig. apply (call_int_too_long t d n Hl Hpos Hbig).
Qed.

Lemma repr_at_nested (k : nat) :
  forall budget,
    (k <= budget -> exists s, repr_at budget (nested k VNone) = Ok s)
    /\ (budget < k -> repr_at budget (nested k VNone) = Raise RecursionError).
Proof.
  induction k as [|k IH]; intros budget.
  - split; [intros _; eexists; reflexivity | lia].
  - destruct budget as [|b]; simpl.
    + split; [lia | reflexivity].
    + destruct (IH b) as [Hok Hfail]. split.
      * intros Hk. destruct (Hok ltac:(lia)) as [s ->]. eexists; reflexivity.
      * intros Hk. rewrite (Hfail ltac:(lia)). reflexivity.
Qed.

(** X11: lists nested [k] deep around None under [input]: [execute] returns
    when the stack has room for [k] nested conversions and raises
    [RecursionError] when it has not. *)
Theorem execute_nesting_limit (t : tool) (d : list (string * value)) (k : nat) :
  lookup "input" d = Some (nested (S k) VNone) ->
  (S k <= recursion_budget -> exists s, SampleTool.call t (VDict d) = Ok s)
  /\ (recursion_budget < S k -> SampleTool.call t (VDict d) = Raise RecursionError).
Proof.
  intros Hl. destruct (repr_at_nested (S k) recursion_budget) as [Hok Hfail]. split.
  - intros Hk. destruct (Hok Hk) as [s Hs]. eexists.
    apply (call_text t d _ s Hl); [reflexivity | exact Hs].
  - intros Hk. apply (call_raise t d _ _ Hl); [reflexivity | exact (Hfail Hk)].
Qed.

End Execute.

(** ** [main] *)

Lemma prefix_of_refl (t : list event) : prefix_of t t.
Proof. exists []. apply app_nil_r. Qed.

Lemma prefix_of_cons (e : event) (t full : list event) :
  prefix_of t full -> prefix_of (e :: t) (e :: full).
Proof. intros [rest Hr]. exists rest. simpl. now rewrite Hr. Qed.

Lemma prefix_of_nil (full : list event) : prefix_of [] full.
Proof. exists full. reflexivity. Qed.

Lemma prefix_of_In (e : event) (t full : list event) :
  prefix_of t full -> In e t -> In e full.
Proof. intros [rest <-] Hin. apply in_or_app. left. exact Hin. Qed.

Create HintDb runs.
#[local] Hint Resolve prefix_of_refl prefix_of_cons prefix_of_nil : runs.

(** Membership in an explicit list of events, by cases. *)
Ltac in_cases Hin :=
  simpl in Hin;
  repeat (destruct Hin as [Hin|Hin]; [try discriminate Hin|]);
  try contradiction.

(** One leaf of the case analysis on the framework's replies: the steps made
    are an initial part of [main_events], and [start] is among them only when
    they are all of it. *)
Ltac run_leaf :=
  simpl; split; [|split; [|split]];
  [ auto 10 with runs
  | discriminate
  | intros ? Hin; in_cases Hin; try (injection Hin as <-; reflexivity)
  | intros ? Hret; try discriminate Hret; reflexivity ].

(** C4: in every run of [main], against any framework, the steps made are an
    initial part of: construct the server with the name and version [1.0.0],
    look up [register_tool], instantiate the tool, register it, print the
    startup line, look up [start], call [start].  A run in which [start] is
    called has made exactly these steps, [start] last; so has a run in which
    [main] returns. *)
Theorem main_order (S : Type) (fw : framework S) (s : S) (ph : placeholders) :
  exists srv,
    prefix_of (trace fw (main ph) s) (main_events ph srv)
    /\ trace fw (main ph) s <> []
    /\ (forall srv', In (EStart srv') (trace fw (main ph) s) ->
        trace fw (main ph) s = main_events ph srv')
    /\ (forall r, snd (exec fw (main ph) s) = Returned r ->
        trace fw (main ph) s = main_events ph srv).
Proof.
  unfold trace, main, main_events.
  generalize ("Starting " ++ name ph ++ " MCP server..."). intros line. simpl.
  destruct (fw _ (McpServer (name ph) "1.0.0") s) as [[srv| |] s1];
    [|exists 0; run_leaf..].
  exists srv.
  destruct (fw _ (getattr srv "register_tool") s1) as [[[]| |] s2];
    [|run_leaf..].
  destruct (fw _ (SampleTool_new (SampleTool.instance ph)) s2) as [[[]| |] s3];
    [|run_leaf..].
  destruct (fw _ (register_tool srv (SampleTool.instance ph)) s3) as [[[]| |] s4];
    [|run_leaf..].
  destruct (fw _ (print line) s4) as [[[]| |] s5];
    [|run_leaf..].
  destruct (fw _ (getattr srv "start") s5) as [[[]| |] s6];
    [|run_leaf..].
  destruct (fw _ (start srv) s6) as [[[]| |] s7]; run_leaf.
Qed.

(** *** Further properties of [main] and of the module body *)

(** A program that starts with a step makes that step first. *)
Lemma exec_Do_head (S R X : Type) (fw : framework S) (c : extcall X)
      (k : X -> prog R) (s : S) :
  hd_error (fst (exec fw (Do c k) s)) = Some (event_of c).
Proof.
  simpl. destruct (fw X c s) as [[x| |] s']; [|reflexivity..].
  destruct (exec fw (k x) s'). reflexivity.
Qed.

(** The later steps, once the construction of the server has returned. *)
Lemma main_prefix_after_server (S : Type) (fw : framework S) (s s1 : S)
      (ph : placeholders) (srv : server) :
  fw _ (McpServer (name ph) "1.0.0") s = (Returns srv, s1) ->
  prefix_of (trace fw (main ph) s) (main_events ph srv)
  /\ hd_error (tl (trace fw (main ph) s)) = Some (EGetattr srv "register_tool")
  /\ (forall tl, In (ESampleTool tl) (trace fw (main ph) s) ->
      fst (fw unit (getattr srv "register_tool") s1) = Returns tt).
Proof.
  intros Hsrv. unfold trace, main, main_events.
  generalize ("Starting " ++ name ph ++ " MCP server..."). intros line.
  simpl. rewrite Hsrv.
  destruct (fw _ (getattr srv "register_tool") s1) as [[[]| |] s2];
    [|simpl; split; [auto 10 with runs | split; [reflexivity|]];
      intros ? Hin; in_cases Hin..].
  destruct (fw _ (SampleTool_new (SampleTool.instance ph)) s2) as [[[]| |] s3];
    [|simpl; split; [auto 10 with runs | split; reflexivity]..].
  destruct (fw _ (register_tool srv (SampleTool.instance ph)) s3) as [[[]| |] s4];
    [|simpl; split; [auto 10 with runs | split; reflexivity]..].
  destruct (fw _ (print line) s4) as [[[]| |] s5];
    [|simpl; split; [auto 10 with runs | split; reflexivity]..].
  destruct (fw _ (getattr srv "start") s5) as [[[]| |] s6];
    [|simpl; split; [auto 10 with runs | split; reflexivity]..].
  destruct (fw _ (start srv) s6) as [[[]| |] s7];
    simpl; (split; [auto 10 with runs | split; reflexivity]).
Qed.

(** X7: once the constructor has returned a server, [main] looks up
    [register_tool] on it next; the tool is instantiated only if that lookup
    returned; and every registration and every call of [start] is on that
    very server, the tool registered being the instance of [SampleTool]. *)
Theorem main_uses_returned_server (S : Type) (fw : framework S) (s s1 : S)
        (ph : placeholders) (srv : server) :
  fw _ (McpServer (name ph) "1.0.0") s = (Returns srv, s1) ->
  (forall srv' tl, In (ERegister srv' tl) (trace fw (main ph) s) ->
     srv' = srv /\ tl = SampleTool.instance ph)
  /\ (forall srv', In (EStart srv') (trace fw (main ph) s) -> srv' = srv)
  /\ In (EGetattr srv "register_tool") (trace fw (main ph) s)
  /\ (forall tl, In (ESampleTool tl) (trace fw (main ph) s) ->
      fst (fw unit (getattr srv "register_tool") s1) = Returns tt).
Proof.
  intros Hsrv.
  destruct (main_prefix_after_server S fw s s1 ph srv Hsrv) as (Hp & Hsnd & Hnew).
  split; [|split; [|split]].
  - intros srv' tl Hin. apply (prefix_of_In _ _ _ Hp) in Hin.
    in_cases Hin. injection Hin as <- <-. split; reflexivity.
  - intros srv' Hin. apply (prefix_of_In _ _ _ Hp) in Hin.
    in_cases Hin. injection Hin as <-. reflexivity.
  - destruct (trace fw (main ph) s) as [|e1 [|e2 rest]]; try discriminate Hsnd.
    simpl in Hsnd. injection Hsnd as ->. right. left. reflexivity.
  - exact Hnew.
Qed.

(** X8: [main] does not guard the startup line: when the standard output
    cannot be written to, [start] is never called and [main] does not
    return, whatever else the framework does. *)
Theorem main_print_failure_prevents_start
        (S : Type) (fw : framework S) (s : S) (ph : placeholders) :
  (forall line s', fst (fw unit (print line) s') <> Returns tt) ->
  (forall srv, ~ In (EStart srv) (trace fw (main ph) s))
  /\ (forall r, snd (exec fw (main ph) s) <> Returned r).
Proof.
  intros Hprint. unfold trace, main.
  generalize (Hprint ("Starting " ++ name ph ++ " MCP server...")).
  generalize ("Starting " ++ name ph ++ " MCP server..."). intros line Hline.
  simpl.
  destruct (fw _ (McpServer (name ph) "1.0.0") s) as [[srv| |] s1];
    [|simpl; split; [intros ? Hin; in_cases Hin | discriminate]..].
  destruct (fw _ (getattr srv "register_tool") s1) as [[[]| |] s2];
    [|simpl; split; [intros ? Hin; in_cases Hin | discriminate]..].
  destruct (fw _ (SampleTool_new (SampleTool.instance ph)) s2) as [[[]| |] s3];
    [|simpl; split; [intros ? Hin; in_cases Hin | discriminate]..].
  destruct (fw _ (register_tool srv (SampleTool.instance ph)) s3) as [[[]| |] s4];
    [|simpl; split; [intros ? Hin; in_cases Hin | discriminate]..].
  specialize (Hline s4).
  destruct (fw _ (print line) s4) as [[[]| |] s5];
    [exfalso; apply Hline; reflexivity
    |simpl; split; [intros ? Hin; in_cases Hin | discriminate]..].
Qed.

(** The steps of [main] are an initial part of [main_events], whatever the
    framework does. *)
Lemma main_prefix (S : Type) (fw : framework S) (s : S) (ph : placeholders) :
  exists srv, prefix_of (trace fw (main ph) s) (main_events ph srv).
Proof.
  destruct (fw _ (McpServer (name ph) "1.0.0") s) as [[srv| |] s1] eqn:Hsrv.
  - exists srv. exact (proj1 (main_prefix_after_server S fw s s1 ph srv Hsrv)).
  - exists 0. unfold trace, main, main_events. simpl. rewrite Hsrv. simpl.
    auto with runs.
  - exists 0. unfold trace, main, main_events. simpl. rewrite Hsrv. simpl.
    auto with runs.
Qed.

(** The steps of the module body are an initial part of the import, the
    class statement and, under the name [__main__] only, the steps of
    [main]. *)
Lemma script_prefix (S : Type) (fw : framework S) (s : S)
      (dunder_name : string) (ph : placeholders) :
  exists srv,
    prefix_of (trace fw (script dunder_name ph) s)
              (module_events ph ++
               if dunder_name =? "__main__" then main_events ph srv else [])%list.
Proof.
  unfold trace, script, module_events. simpl.
  destruct (fw _ (import_from "mcp" ["McpServer"; "Tool"]) s) as [[[]| |] s1];
    [|exists 0; simpl; auto 10 with runs..].
  destruct (fw _ (build_class "SampleTool" "Tool" (SampleTool.instance ph)) s1)
    as [[[]| |] s2]; [|exists 0; simpl; auto 10 with runs..].
  destruct (dunder_name =? "__main__").
  - destruct (main_prefix S fw s2 ph) as (srv & Hp). exists srv.
    unfold trace in Hp. destruct (exec fw (main ph) s2) as [tl o]. simpl in *.
    auto 10 with runs.
  - exists 0. simpl. auto 10 with runs.
Qed.

(** X9: the module body under any framework: it starts with the import of
    [mcp], and a failed import or class statement ends it there; under a
    name other than [__main__] it goes no further than the import and the
    class statement, so no server is built, nothing is printed and [start]
    is not called; under [__main__] the steps of [main] come only after both
    have returned. *)
Theorem script_guard (S : Type) (fw : framework S) (s : S)
        (dunder_name : string) (ph : placeholders) :
  hd_error (trace fw (script dunder_name ph) s)
  = Some (EImport "mcp" ["McpServer"; "Tool"])
  /\ (dunder_name <> "__main__" ->
      prefix_of (trace fw (script dunder_name ph) s) (module_events ph))
  /\ (forall n v, In (EMcpServer n v) (trace fw (script dunder_name ph) s) ->
      dunder_name = "__main__"
      /\ exists s1 s2,
           fw unit (import_from "mcp" ["McpServer"; "Tool"]) s = (Returns tt, s1)
           /\ fw unit (build_class "SampleTool" "Tool" (SampleTool.instance ph)) s1
              = (Returns tt, s2)
           /\ exec fw (script dunder_name ph) s
              = (module_events ph ++ trace fw (main ph) s2,
                 snd (exec fw (main ph) s2))%list).
Proof.
  split; [apply exec_Do_head|].
  split.
  - intros Hn. destruct (script_prefix S fw s dunder_name ph) as [srv Hp].
    destruct (String.eqb_spec dunder_name "__main__") as [E|_]; [contradiction|].
    rewrite app_nil_r in Hp. exact Hp.
  - unfold trace, script, module_events. generalize (main ph). intros m. simpl.
    destruct (fw _ (import_from "mcp" ["McpServer"; "Tool"]) s) as [[[]| |] s1];
      [|intros ? ? Hin; in_cases Hin..].
    destruct (fw _ (build_class "SampleTool" "Tool" (SampleTool.instance ph)) s1)
      as [[[]| |] s2] eqn:Hc; [|intros ? ? Hin; in_cases Hin..].
    destruct (String.eqb_spec dunder_name "__main__") as [E|NE].
    + intros n v _. split; [exact E|]. exists s1, s2.
      split; [reflexivity|]. split; [exact Hc|].
      destruct (exec fw m s2) as [tl o]. reflexivity.
    + intros n v Hin. in_cases Hin.
Qed.

(** ** The placeholders *)


(** * Runs under the interpreter's defaults *)

#[global] Existing Instance cpython.

(** The int the examples use for one with too many digits: 1 followed by
    4300 zeros, which has 4301 digits. *)
Lemma huge_reaches_limit :
  (0 < int_max_str_digits)%N
  /\ (10 ^ Z.of_N int_max_str_digits <= Z.abs (10 ^ 4300))%Z.
Proof.
  split; [reflexivity|].
  change (Z.of_N int_max_str_digits) with 4300%Z.
  rewrite Z.abs_eq; [apply Z.le_refl | apply Z.pow_nonneg; lia].
Qed.

Lemma call_huge_int (t : tool) :
  SampleTool.call t (VDict [("input", VInt (10 ^ 4300))]) = Raise ValueError.
Proof.
  apply (call_int_too_long t [("input", VInt (10 ^ 4300))] (10 ^ 4300) eq_refl);
    [exact (proj1 huge_reaches_limit) | exact (proj2 huge_reaches_limit)].
Qed.

Lemma call_deep_list (t : tool) :
  SampleTool.call t (VDict [("input", nested 2000 VNone)]) = Raise RecursionError.
Proof.
  apply (call_raise t [("input", nested 2000 VNone)] (nested 2000 VNone)
           RecursionError eq_refl eq_refl).
  apply (proj2 (repr_at_nested 2000 recursion_budget)). simpl. lia.
Qed.

Example repr_nested :
  repr (VList [VStr "a"; VNone; VDict [("k", VNone); ("b", VList [])]; VBool true])
  = Ok "['a', None, {'k': None, 'b': []}, True]".
Proof. reflexivity. Qed.

Example repr_str_quotes :
  repr (VStr "it's") = Ok (String dquote ("it's" ++ String dquote ""))
  /\ repr (VStr "plain") = Ok "'plain'"
  /\ repr (VStr (String (ascii_of_nat 10) (String (ascii_of_nat 1) "")))
     = Ok (String squote (String backslash ("n" ++ String backslash ("x01" ++ String squote "")))).
Proof. repeat split. Qed.

(** A receiver that is not a dict has no [get]: the call raises. *)
Example execute_on_list :
  SampleTool.call (SampleTool.instance unsubstituted) (VList [])
  = Raise (AttributeError "get").
Proof. reflexivity. Qed.

Example execute_hello :
  SampleTool.call (SampleTool.instance unsubstituted) (VDict [("input", VStr "hello")])
  = Ok "Processed: hello".
Proof. reflexivity. Qed.

Example execute_empty_dict :
  SampleTool.call (SampleTool.instance unsubstituted) (VDict [])
  = Ok "Processed: No input provided".
Proof. reflexivity. Qed.

Example execute_empty_string :
  SampleTool.call (SampleTool.instance unsubstituted) (VDict [("input", VStr "")])
  = Ok "Processed: No input provided".
Proof. reflexivity. Qed.

Example execute_falsy_values :
  map (fun v => SampleTool.call (SampleTool.instance unsubstituted) (VDict [("input", v)]))
      [VNone; VBool false; VInt 0; VList []; VDict []]
  = repeat (Ok "Processed: No input provided") 5.
Proof. reflexivity. Qed.

Example refeed_twice :
  refeed 2 (SampleTool.instance unsubstituted) (VDict [])
  = Ok "Processed: Processed: Processed: No input provided".
Proof. reflexivity. Qed.

Example main_serving :
  exec serving (main unsubstituted) 7 = (main_events unsubstituted 7, Blocked).
Proof. reflexivity. Qed.

Example main_returning :
  exec returning (main unsubstituted) 0 = (main_events unsubstituted 0, Returned tt).
Proof. reflexivity. Qed.

Example main_broken_stdout :
  exec broken_stdout (main unsubstituted) 0
  = ([ EMcpServer "{{name}}" "1.0.0";
       EGetattr 0 "register_tool";
       ESampleTool (SampleTool.instance unsubstituted);
       ERegister 0 (SampleTool.instance unsubstituted);
       EPrint "Starting {{name}} MCP server..." ],
     Raised).
Proof. reflexivity. Qed.

(** A server without [register_tool]: the tool is never instantiated. *)
Example main_no_register_tool :
  exec no_register_tool (main unsubstituted) 0
  = ([ EMcpServer "{{name}}" "1.0.0"; EGetattr 0 "register_tool" ], Raised).
Proof. reflexivity. Qed.

(** Without the package the module stops at its first statement, under any
    name. *)
Example script_no_mcp :
  exec no_mcp (script "__main__" unsubstituted) 0
  = ([ EImport "mcp" ["McpServer"; "Tool"] ], Raised)
  /\ exec no_mcp (script "server" unsubstituted) 0
     = ([ EImport "mcp" ["McpServer"; "Tool"] ], Raised).
Proof. split; reflexivity. Qed.

(** ** The theorems on [execute] and [main] at concrete inputs *)

Lemma execute_fallback_or_text_witness :
  SampleTool.call (SampleTool.instance unsubstituted) (VDict [("other", VInt 1)])
    = Ok "Processed: No input provided"
  /\ SampleTool.call (SampleTool.instance unsubstituted) (VDict [("input", VStr "")])
    = Ok "Processed: No input provided"
  /\ SampleTool.call (SampleTool.instance unsubstituted) (VDict [("input", VInt 5)])
    = Ok "Processed: 5"
  /\ SampleTool.call (SampleTool.instance unsubstituted) (VDict [("input", VStr "hello")])
    = Ok "Processed: hello"
  /\ SampleTool.call (SampleTool.instance unsubstituted)
       (VDict [("input", nested 2000 VNone)])
    = Raise RecursionError.
Proof.
  split; [|split; [|split; [|split]]].
  - apply (proj1 (@execute_fallback_or_text cpython _ [("other", VInt 1)])). reflexivity.
  - apply (proj1 (proj2 (@execute_fallback_or_text cpython _ [("input", VStr "")])) (VStr ""));
      reflexivity.
  - apply (proj1 (proj2 (proj2 (@execute_fallback_or_text cpython _ [("input", VInt 5)])))
             (VInt 5) "5"); [reflexivity | reflexivity |].
    exact (str_int_small 5 eq_refl).
  - apply (proj1 (proj2 (proj2 (proj2 (@execute_fallback_or_text cpython _ [("input", VStr "hello")]))))
             "hello"); reflexivity.
  - apply (proj2 (proj2 (proj2 (proj2 (@execute_fallback_or_text cpython _
             [("input", nested 2000 VNone)])))) (nested 2000 VNone) RecursionError);
      [reflexivity | reflexivity |].
    apply (proj2 (repr_at_nested 2000 recursion_budget)). simpl. lia.
Defined.

(** C1 as first stated, with a text after the prefix for every truthy
    value, fails on an int of 4301 digits: the call raises. *)
Lemma execute_huge_int_gives_no_text :
  lookup "input" [("input", VInt (10 ^ 4300))] = Some (VInt (10 ^ 4300))
  /\ truthy (VInt (10 ^ 4300)) = true
  /\ ~ exists text,
        SampleTool.call (SampleTool.instance unsubstituted)
          (VDict [("input", VInt (10 ^ 4300))])
        = Ok ("Processed: " ++ text).
Proof.
  split; [reflexivity|]. split.
  - apply (str_int_too_long (10 ^ 4300));
      [exact (proj1 huge_reaches_limit) | exact (proj2 huge_reaches_limit)].
  - intros [text E]. rewrite call_huge_int in E. discriminate E.
Qed.

Lemma execute_nonempty_string_witness :
  SampleTool.call (SampleTool.instance unsubstituted)
    (VDict [("verbose", VBool true); ("input", VStr "hello")])
  = Ok "Processed: hello".
Proof.
  apply (@execute_nonempty_string cpython _ [("verbose", VBool true); ("input", VStr "hello")] "hello").
  - reflexivity.
  - discriminate.
Defined.

(** C3 as first stated, success on every mapping, fails: on these two
    mappings [execute] raises. *)
Lemma execute_raises_on_unformattable :
  SampleTool.call (SampleTool.instance unsubstituted)
    (VDict [("input", VInt (10 ^ 4300))]) = Raise ValueError
  /\ SampleTool.call (SampleTool.instance unsubstituted)
       (VDict [("input", nested 2000 VNone)]) = Raise RecursionError.
Proof. split; [apply call_huge_int | apply call_deep_list]. Qed.

Lemma execute_result_nonempty_witness :
  "Processed: hello" <> ""
  /\ prefix "Processed: " "Processed: hello" = true
  /\ 11 <= String.length "Processed: hello".
Proof.
  apply (proj1 (@execute_result_nonempty cpython (SampleTool.instance unsubstituted)
                  [("input", VStr "hello")]) "Processed: hello").
  reflexivity.
Defined.

Lemma execute_reads_only_input_witness :
  SampleTool.call (SampleTool.instance unsubstituted)
    (VDict [("input", VStr "a"); ("limit", VInt 3)])
  = SampleTool.call (SampleTool.instance unsubstituted)
    (VDict [("mode", VNone); ("input", VStr "a"); ("limit", VList [])]).
Proof.
  apply (@execute_reads_only_input cpython _ _
           [("input", VStr "a"); ("limit", VInt 3)]
           [("mode", VNone); ("input", VStr "a"); ("limit", VList [])]).
  reflexivity.
Defined.

Lemma execute_non_string_text_witness :
  SampleTool.call (SampleTool.instance unsubstituted) (VDict [("input", VInt 5)])
    = Ok "Processed: 5"
  /\ SampleTool.call (SampleTool.instance unsubstituted)
       (VDict [("input", VList [VStr "a"; VNone])])
    = Ok "Processed: ['a', None]"
  /\ exists e, SampleTool.call (SampleTool.instance unsubstituted)
                 (VDict [("input", VInt (10 ^ 4300))]) = Raise e
               /\ (e = ValueError \/ e = RecursionError).
Proof.
  split; [|split].
  - destruct (proj1 (proj2 (@execute_non_string_text cpython (SampleTool.instance unsubstituted)
                [("input", VInt 5)] (VInt 5) eq_refl eq_refl eq_refl))
                (proj2 (str_fits (VInt 5)) (ex_intro _ _ (str_int_small 5 eq_refl))))
      as (text & Hs & Hc & _).
    rewrite (str_int_small 5 eq_refl) in Hs. injection Hs as <-. exact Hc.
  - destruct (proj1 (proj2 (@execute_non_string_text cpython (SampleTool.instance unsubstituted)
                [("input", VList [VStr "a"; VNone])] (VList [VStr "a"; VNone])
                eq_refl eq_refl eq_refl)) eq_refl)
      as (text & Hs & Hc & _).
    injection Hs as <-. exact Hc.
  - destruct (str_int_too_long (10 ^ 4300) (proj1 huge_reaches_limit)
                (proj2 huge_reaches_limit)) as (Ht & _ & Hf).
    destruct (proj2 (proj2 (@execute_non_string_text cpython (SampleTool.instance unsubstituted)
                [("input", VInt (10 ^ 4300))] (VInt (10 ^ 4300)) eq_refl Ht eq_refl)) Hf)
      as (e & _ & Hc & Hk).
    exists e. split; [exact Hc | exact Hk].
Defined.

(** C10 as first stated, no exception on a truthy value that is not a
    string, fails: a truthy int on which [execute] raises. *)
Lemma execute_raises_on_huge_int :
  truthy (VInt (10 ^ 4300)) = true
  /\ is_str (VInt (10 ^ 4300)) = false
  /\ SampleTool.call (SampleTool.instance unsubstituted)
       (VDict [("input", VInt (10 ^ 4300))]) = Raise ValueError.
Proof.
  split; [|split; [reflexivity | apply call_huge_int]].
  apply (str_int_too_long (10 ^ 4300));
    [exact (proj1 huge_reaches_limit) | exact (proj2 huge_reaches_limit)].
Qed.

Lemma main_order_witness :
  trace serving (main unsubstituted) 7 = main_events unsubstituted 7.
Proof.
  destruct (main_order nat serving 7 unsubstituted) as (srv & _ & _ & Hstart & _).
  apply Hstart. simpl. tauto.
Defined.




(** ** The further properties at concrete inputs *)

Lemma execute_not_a_dict_witness :
  SampleTool.execute {| SampleTool.self := SampleTool.instance unsubstituted;
                        SampleTool.params := VStr "input" |}
  = (Raise (AttributeError "get"),
     {| SampleTool.self := SampleTool.instance unsubstituted;
        SampleTool.params := VStr "input" |}).
Proof.
  apply (@execute_not_a_dict cpython (SampleTool.instance unsubstituted) (VStr "input")).
  reflexivity.
Defined.

Lemma execute_text_nonempty_witness :
  exists text, "Processed: hello" = "Processed: " ++ text
               /\ text <> ""
               /\ "Processed: hello" <> "Processed: "
               /\ 12 <= String.length "Processed: hello".
Proof.
  apply (@execute_text_nonempty cpython (SampleTool.instance unsubstituted)
           [("input", VStr "hello")] "Processed: hello").
  reflexivity.
Defined.

Lemma execute_type_blind_witness :
  SampleTool.call (SampleTool.instance unsubstituted) (VDict [("input", VInt 5)])
  = SampleTool.call (SampleTool.instance unsubstituted) (VDict [("input", VStr "5")]).
Proof.
  apply (@execute_type_blind cpython _ [("input", VInt 5)] [("input", VStr "5")] (VInt 5) "5");
    [reflexivity | reflexivity | exact (str_int_small 5 eq_refl) | reflexivity].
Defined.

Lemma execute_result_determines_text_witness :
  SampleTool.call (SampleTool.instance unsubstituted)
    (VDict [("input", VList [VStr "a"])])
  = SampleTool.call (SampleTool.instance unsubstituted)
    (VDict [("k", VNone); ("input", VStr "['a']")]).
Proof.
  apply (proj2 (@execute_result_determines_text cpython (SampleTool.instance unsubstituted)
                  [("input", VList [VStr "a"])] [("k", VNone); ("input", VStr "['a']")]
                  (VList [VStr "a"]) (VStr "['a']") "['a']" "['a']"
                  eq_refl eq_refl eq_refl eq_refl eq_refl eq_refl)).
  reflexivity.
Defined.

Lemma refeed_adds_prefixes_witness :
  refeed 2 (SampleTool.instance unsubstituted) (VDict [])
  = Ok "Processed: Processed: Processed: No input provided".
Proof.
  apply (@refeed_adds_prefixes cpython 2 (SampleTool.instance unsubstituted) []
           "Processed: No input provided").
  reflexivity.
Defined.

Lemma execute_int_digit_limit_witness :
  SampleTool.call (SampleTool.instance unsubstituted)
    (VDict [("input", VInt (10 ^ 4300))]) = Raise ValueError.
Proof.
  apply (proj2 (proj2 (@execute_int_digit_limit cpython (SampleTool.instance unsubstituted)
                         [("input", VInt (10 ^ 4300))] (10 ^ 4300) eq_refl))).
  - exact (proj1 huge_reaches_limit).
  - exact (proj2 huge_reaches_limit).
Defined.

Lemma execute_nesting_limit_witness :
  SampleTool.call (SampleTool.instance unsubstituted)
    (VDict [("input", nested 2000 VNone)]) = Raise RecursionError.
Proof.
  apply (proj2 (@execute_nesting_limit cpython (SampleTool.instance unsubstituted)
                  [("input", nested 2000 VNone)] 1999 eq_refl)).
  simpl. lia.
Defined.

Lemma main_uses_returned_server_witness :
  In (EGetattr 7 "register_tool") (trace serving (main unsubstituted) 7).
Proof.
  apply (proj1 (proj2 (proj2 (main_uses_returned_server nat serving 7 8 unsubstituted 7
                                eq_refl)))).
Defined.

Lemma main_print_failure_prevents_start_witness :
  ~ In (EStart 0) (trace broken_stdout (main unsubstituted) 0).
Proof.
  apply (proj1 (main_print_failure_prevents_start nat broken_stdout 0 unsubstituted
                  (fun line s' (H : fst (broken_stdout unit (print line) s') = Returns tt) =>
                     eq_ind (@Raises unit)
                            (fun r => match r with Raises => True | _ => False end)
                            I (Returns tt) H))).
Defined.

Lemma script_guard_witness :
  prefix_of (trace serving (script "server" unsubstituted) 0)
            (module_events unsubstituted).
Proof.
  apply (proj1 (proj2 (script_guard nat serving 0 "server" unsubstituted))).
  discriminate.
Defined.
